(** * Cart routes of the product recommender backend

    A shallow embedding of [backend/src/routes/cart.py]: the four handlers
    [get_cart], [add_to_cart], [update_cart] and [remove_from_cart], run
    against an explicit model of the request's database session, followed
    by the properties of the cart-management contract. *)

From Stdlib Require Import ZArith Lia.
From stdpp Require Import base list strings.

Local Open Scope string_scope.
Local Open Scope Z_scope.
Local Open Scope list_scope.

(** ** Data model *)

(** [database.models_sql.User]: the handlers read only its [user_id]. *)
Record User := mkUser { User_user_id : string }.

(** [models.CartItem], the request and response body.  [quantity] may be
    left out of a request, which the handlers see as [None]. *)
Record CartItem := mkCartItem {
  item_user_id : string;
  item_product_id : string;
  item_quantity : option Z
}.

(** [database.models_sql.CartItem], imported as [CartItemDB]: one stored
    row.  Python integers do not wrap, hence [Z]. *)
Record CartItemDB := mkCartItemDB {
  row_user_id : string;
  row_product_id : string;
  row_quantity : Z
}.

(** [models.InteractionType]; the handlers use the member [CART] only. *)
Inductive InteractionType := CART.

(** One record written by [db_service.log_interaction]. *)
Record Interaction := mkInteraction {
  log_user_id : string;
  log_item_id : string;
  log_interaction_type : InteractionType
}.

#[global] Instance CartItem_eq_dec : EqDecision CartItem.
Proof. solve_decision. Defined.
#[global] Instance CartItemDB_eq_dec : EqDecision CartItemDB.
Proof. solve_decision. Defined.
#[global] Instance InteractionType_eq_dec : EqDecision InteractionType.
Proof. solve_decision. Defined.
#[global] Instance Interaction_eq_dec : EqDecision Interaction.
Proof. solve_decision. Defined.

(** ** Exceptions and outcomes *)

Inductive Exception :=
| HTTPException (status_code : Z) (detail : string)
| NameError (name : string)
| TypeError
| MultipleResultsFound
| ResourceClosedError.

Definition HTTP_403_FORBIDDEN : Z := 403.
Definition HTTP_404_NOT_FOUND : Z := 404.

Inductive Outcome (A : Type) :=
| Returned (value : A)
| Raised (e : Exception).
Arguments Returned {A} value.
Arguments Raised {A} e.

(** The status line of the response: the route's success status when the
    handler returns, the status of an [HTTPException], and 500 for any
    other exception that escapes the handler. *)
Definition http_status {A} (success : Z) (o : Outcome A) : Z :=
  match o with
  | Returned _ => success
  | Raised (HTTPException code _) => code
  | Raised _ => 500
  end.

(** ** The store and the request's session *)

(** What outlives a request: the committed rows of the cart table and the
    interaction log. *)
Record Backend := mkBackend {
  cart_items : list CartItemDB;
  interactions : list Interaction
}.

(** Every call a handler makes on its collaborators, in program order. *)
Inductive Effect :=
| ELogInteraction (i : Interaction)
| EExecuteSelect
| EExecuteDelete
| ESetQuantity (index : nat) (q : Z)
| EAdd (row : CartItemDB)
| EDelete (index : nat)
| ECommit.

Definition is_mutation (e : Effect) : bool :=
  match e with
  | ELogInteraction _ | EExecuteSelect => false
  | _ => true
  end.

(** The [AsyncSession] of one request: its working copy of the table (a
    loaded row object is identified by its position), the backend behind
    it, and the journal of the calls made so far. *)
Record Session := mkSession {
  rows : list CartItemDB;
  backend : Backend;
  journal : list Effect
}.

(** Handlers are state-passing computations that may raise. *)
Definition Handler (A : Type) : Type := Session → Outcome A * Session.

Definition ret {A} (a : A) : Handler A := λ s, (Returned a, s).

Definition raise {A} (e : Exception) : Handler A := λ s, (Raised e, s).

Definition bind {A B} (m : Handler A) (k : A → Handler B) : Handler B :=
  λ s, match m s with
       | (Returned a, s') => k a s'
       | (Raised e, s') => (Raised e, s')
       end.

Notation "x <~ m ;; k" := (bind m (λ x, k))
  (at level 100, m at next level, right associativity).
Notation "m ;;; k" := (bind m (λ _, k))
  (at level 100, right associativity).

Definition record (e : Effect) (s : Session) : Session :=
  mkSession (rows s) (backend s) (journal s ++ [e]).

(** What [db.execute] hands back: the rows of a SELECT, or the row count
    of a statement that returns no rows. *)
Inductive Result :=
| RowsResult (found : list (nat * CartItemDB))
| CountResult (rowcount : nat).

Inductive Statement :=
| Select (where_ : CartItemDB → bool)
| Delete (where_ : CartItemDB → bool).

(** The rows satisfying a WHERE clause, each with its position, in table
    order; [n] is the position of the head of [l]. *)
Fixpoint select_from (where_ : CartItemDB → bool) (n : nat)
    (l : list CartItemDB) : list (nat * CartItemDB) :=
  match l with
  | [] => []
  | r :: l' =>
      if where_ r then (n, r) :: select_from where_ (S n) l'
      else select_from where_ (S n) l'
  end.

Fixpoint delete_where (where_ : CartItemDB → bool)
    (l : list CartItemDB) : list CartItemDB :=
  match l with
  | [] => []
  | r :: l' =>
      if where_ r then delete_where where_ l' else r :: delete_where where_ l'
  end.

(** [await db.execute(stmt)] *)
Definition execute (stmt : Statement) : Handler Result :=
  λ s, match stmt with
       | Select w =>
           (Returned (RowsResult (select_from w 0 (rows s))),
            record EExecuteSelect s)
       | Delete w =>
           (Returned (CountResult (length (select_from w 0 (rows s)))),
            record EExecuteDelete
              (mkSession (delete_where w (rows s)) (backend s) (journal s)))
       end.

(** [result.scalars().all()] *)
Definition scalars_all (res : Result) : Handler (list (nat * CartItemDB)) :=
  match res with
  | RowsResult found => ret found
  | CountResult _ => raise ResourceClosedError
  end.

(** [result.scalar_one_or_none()]: the single row, [None] when there is
    none, an exception when there are several or when the statement
    returned no rows at all. *)
Definition scalar_one_or_none (res : Result)
    : Handler (option (nat * CartItemDB)) :=
  match res with
  | RowsResult [] => ret None
  | RowsResult [x] => ret (Some x)
  | RowsResult _ => raise MultipleResultsFound
  | CountResult _ => raise ResourceClosedError
  end.

(** Assignment to [existing_item.quantity]. *)
Definition set_quantity (i : nat) (q : Z) : Handler unit :=
  λ s, (Returned tt,
        record (ESetQuantity i q)
          (mkSession
             (alter (λ r, mkCartItemDB (row_user_id r) (row_product_id r) q)
                i (rows s))
             (backend s) (journal s))).

(** [db.add(new_item)] *)
Definition db_add (r : CartItemDB) : Handler unit :=
  λ s, (Returned tt,
        record (EAdd r) (mkSession (rows s ++ [r]) (backend s) (journal s))).

(** [await db.delete(existing_item)] *)
Definition db_delete (i : nat) : Handler unit :=
  λ s, (Returned tt,
        record (EDelete i)
          (mkSession (delete i (rows s)) (backend s) (journal s))).

(** [await db.commit()]: the working copy becomes the committed table. *)
Definition db_commit : Handler unit :=
  λ s, (Returned tt,
        record ECommit
          (mkSession (rows s)
             (mkBackend (rows s) (interactions (backend s)))
             (journal s))).

(** Modelled from the spec: [services.database_service.db_service] is not
    part of the source at hand.  The spec describes the interaction log
    as an append-only sink that receives an actor, a subject and an
    action, so [log_interaction] appends one record. *)
Definition log_interaction (user_id item_id : string)
    (interaction_type : InteractionType) : Handler unit :=
  λ s, let i := mkInteraction user_id item_id interaction_type in
       (Returned tt,
        record (ELogInteraction i)
          (mkSession (rows s)
             (mkBackend (cart_items (backend s))
                (interactions (backend s) ++ [i]))
             (journal s))).

(** The names bound at module level in [cart.py]: its imports, [logger],
    [router] and the four handlers. *)
Definition module_globals : list string :=
  ["logging"; "List"; "APIRouter"; "Depends"; "HTTPException"; "status";
   "AsyncSession"; "select"; "get_db"; "CartItemDB"; "User"; "CartItem";
   "InteractionType"; "get_current_user"; "db_service"; "logger"; "router";
   "get_cart"; "add_to_cart"; "update_cart"; "remove_from_cart"].

(** Evaluating a global name that the module does not bind. *)
Definition global_name (name : string) : Handler unit :=
  if bool_decide (name ∈ module_globals) then ret tt
  else raise (NameError name).

(** Python's [q or d] on an optional integer: [d] replaces [None] and 0. *)
Definition py_or (q : option Z) (d : Z) : Z :=
  match q with
  | None => d
  | Some v => if Z.eqb v 0 then d else v
  end.

(** The WHERE clauses of the handlers. *)
Definition owned_by (user_id : string) (r : CartItemDB) : bool :=
  bool_decide (row_user_id r = user_id).

Definition keyed_by (user_id product_id : string) (r : CartItemDB) : bool :=
  bool_decide (row_user_id r = user_id)
  && bool_decide (row_product_id r = product_id).

(** ** The handlers *)

(** [GET /cart/{user_id}] *)
Definition get_cart (user_id : string) (current_user : User)
    : Handler (list CartItem) :=
  if bool_decide (User_user_id current_user ≠ user_id) then
    raise (HTTPException HTTP_403_FORBIDDEN
             "You can only access your own cart")
  else
    result <~ execute (Select (owned_by user_id)) ;;
    cart_items <~ scalars_all result ;;
    ret ((λ item : nat * CartItemDB,
            mkCartItem (row_user_id item.2) (row_product_id item.2)
              (Some (row_quantity item.2)))
         <$> cart_items).

(** [POST /cart/{user_id}] *)
Definition add_to_cart (user_id : string) (item : CartItem)
    (current_user : User) : Handler unit :=
  if bool_decide (User_user_id current_user ≠ user_id) then
    raise (HTTPException HTTP_403_FORBIDDEN
             "You can only add items to your own cart")
  else
    log_interaction (item_user_id item) (item_product_id item) CART ;;;
    result <~ execute (Select (keyed_by user_id (item_product_id item))) ;;
    existing_item <~ scalar_one_or_none result ;;
    match existing_item with
    | Some (i, existing) =>
        set_quantity i (row_quantity existing + py_or (item_quantity item) 1) ;;;
        db_commit
    | None =>
        db_add (mkCartItemDB user_id (item_product_id item)
                  (py_or (item_quantity item) 1)) ;;;
        db_commit
    end.

(** [PUT /cart/{user_id}].  The comparison [item.quantity <= 0] raises
    when the body carries no quantity. *)
Definition update_cart (user_id : string) (item : CartItem)
    (current_user : User) : Handler unit :=
  if bool_decide (User_user_id current_user ≠ user_id) then
    raise (HTTPException HTTP_403_FORBIDDEN
             "You can only update your own cart")
  else
    result <~ execute (Select (keyed_by user_id (item_product_id item))) ;;
    existing_item <~ scalar_one_or_none result ;;
    match existing_item with
    | Some (i, existing) =>
        match item_quantity item with
        | None => raise TypeError
        | Some q =>
            (if Z.leb q 0 then db_delete i else set_quantity i q) ;;;
            db_commit
        end
    | None =>
        raise (HTTPException HTTP_404_NOT_FOUND "Item not found in cart")
    end.

(** [DELETE /cart/{user_id}].  The statement is built with [delete], a
    name the module never binds; the statements after it are embedded as
    written, in [remove_from_cart_rest].  The calls to [logger] have no
    effect on the store or on the interaction log and are left out. *)
Definition remove_from_cart_rest (user_id : string) (item : CartItem)
    : Handler unit :=
  result <~ execute (Delete (keyed_by user_id (item_product_id item))) ;;
  existing_item <~ scalar_one_or_none result ;;
  match existing_item with
  | Some (i, _) => db_delete i ;;; db_commit
  | None => raise (HTTPException HTTP_404_NOT_FOUND "Item not found in cart")
  end.

Definition remove_from_cart (user_id : string) (item : CartItem)
    (current_user : User) : Handler unit :=
  if bool_decide (User_user_id current_user ≠ user_id) then
    raise (HTTPException HTTP_403_FORBIDDEN
             "You can only remove items from your own cart")
  else
    global_name "delete" ;;;
    remove_from_cart_rest user_id item.

(** ** Serving a request *)

(** What a request leaves behind: the handler's outcome, the backend after
    the session is closed (work that was not committed is dropped), and
    the journal of the calls that were made. *)
Record Served (A : Type) := mkServed {
  outcome : Outcome A;
  after : Backend;
  calls : list Effect
}.
Arguments mkServed {A} outcome after calls.
Arguments outcome {A} _.
Arguments after {A} _.
Arguments calls {A} _.

(** [Depends(get_db)] gives each request a session of its own, opened on
    the committed table. *)
Definition open_session (b : Backend) : Session :=
  mkSession (cart_items b) b [].

Definition serve {A} (h : Handler A) (b : Backend) : Served A :=
  let '(o, s) := h (open_session b) in
  mkServed o (backend s) (journal s).

(** ** Vocabulary of the contract *)

Definition row_key (r : CartItemDB) : string * string :=
  (row_user_id r, row_product_id r).

(** The table holds one row at most for each (user, product) pair. *)
Definition keys_unique (l : list CartItemDB) : Prop :=
  NoDup (row_key <$> l).

(** The persisted-row invariant of the data model. *)
Definition quantities_positive (l : list CartItemDB) : Prop :=
  Forall (λ r, 1 ≤ row_quantity r) l.

(** A stored row as it is shown to the client. *)
Definition as_item (r : CartItemDB) : CartItem :=
  mkCartItem (row_user_id r) (row_product_id r) (Some (row_quantity r)).

(** A stored row with its quantity replaced. *)
Definition with_quantity (q : Z) (r : CartItemDB) : CartItemDB :=
  mkCartItemDB (row_user_id r) (row_product_id r) q.

(** The record that [add_to_cart] sends to the interaction log. *)
Definition cart_event (item : CartItem) : Interaction :=
  mkInteraction (item_user_id item) (item_product_id item) CART.

(** A request is refused when it is answered with 403, the backend is
    what it was and no call was made on the session or on the log. *)
Definition refused {A} (b : Backend) (s : Served A) : Prop :=
  (∃ detail, outcome s = Raised (HTTPException HTTP_403_FORBIDDEN detail))
  ∧ http_status 204 (outcome s) = 403
  ∧ after s = b
  ∧ calls s = [].

(** ** Selecting rows *)

Lemma keyed_by_true u p r : keyed_by u p r = true ↔ row_key r = (u, p).
Proof.
  unfold keyed_by, row_key. rewrite andb_true_iff, !bool_decide_eq_true.
  split; [intros [-> ->]; done | intros [= -> ->]; done].
Qed.

Lemma keyed_by_false u p r : keyed_by u p r = false ↔ row_key r ≠ (u, p).
Proof. rewrite <- keyed_by_true. destruct (keyed_by u p r); naive_solver. Qed.

Lemma select_from_none w n l :
  (∀ r, r ∈ l → w r = false) → select_from w n l = [].
Proof.
  revert n. induction l as [|r l IH]; intros n Hall; [done|].
  simpl. rewrite (Hall r) by left. apply IH. intros r' Hr'. apply Hall. by right.
Qed.

Lemma select_from_rows w n l :
  (select_from w n l).*2 = filter (λ r, w r = true) l.
Proof.
  revert n. induction l as [|r l IH]; intros n; [done|].
  simpl. rewrite filter_cons. destruct (w r) eqn:Hw.
  - rewrite decide_True by done. simpl. by rewrite IH.
  - rewrite decide_False by done. apply IH.
Qed.

Lemma select_from_unique u p n l i r :
  keys_unique l → l !! i = Some r → row_key r = (u, p) →
  select_from (keyed_by u p) n l = [(n + i, r)]%nat.
Proof.
  unfold keys_unique. revert n i.
  induction l as [|r0 l IH]; intros n i Hnd Hi Hk; [done|].
  rewrite fmap_cons in Hnd. apply NoDup_cons in Hnd as [Hfresh Hnd].
  destruct i as [|i]; simpl in Hi |- *.
  - injection Hi as ->. rewrite (proj2 (keyed_by_true u p r) Hk).
    rewrite Nat.add_0_r. f_equal. apply select_from_none.
    intros r' Hr'. apply keyed_by_false. intros Hr'k. apply Hfresh.
    rewrite Hk, <- Hr'k. by apply list_elem_of_fmap_2.
  - assert (keyed_by u p r0 = false) as ->.
    { apply keyed_by_false. intros Hk0. apply Hfresh.
      rewrite Hk0, <- Hk. apply list_elem_of_fmap_2.
      by eapply list_elem_of_lookup_2. }
    rewrite (IH (S n) i Hnd Hi Hk). do 2 f_equal. lia.
Qed.

Lemma select_from_absent u p l :
  (∀ r, r ∈ l → row_key r ≠ (u, p)) → select_from (keyed_by u p) 0 l = [].
Proof.
  intros Hall. apply select_from_none. intros r Hr.
  apply keyed_by_false. by apply Hall.
Qed.

(** ** Updating rows *)

Lemma alter_with_quantity q (l : list CartItemDB) i r :
  l !! i = Some r →
  alter (λ r, mkCartItemDB (row_user_id r) (row_product_id r) q) i l
  = <[i := with_quantity q r]> l.
Proof.
  intros Hi. rewrite list_insert_alter. apply list_alter_ext; [|done].
  intros x Hx. rewrite Hi in Hx. by injection Hx as ->.
Qed.

Lemma keys_insert_with_quantity q (l : list CartItemDB) i r :
  l !! i = Some r →
  row_key <$> <[i := with_quantity q r]> l = row_key <$> l.
Proof.
  intros Hi. rewrite list_fmap_insert. apply list_insert_id.
  by rewrite list_lookup_fmap, Hi.
Qed.

Lemma delete_removes_key (l : list CartItemDB) i r :
  keys_unique l → l !! i = Some r →
  ∀ r', r' ∈ delete i l → row_key r' ≠ row_key r.
Proof.
  unfold keys_unique. intros Hnd Hi r' Hr' Heq.
  rewrite <- (take_drop_middle l i r Hi), fmap_app, fmap_cons in Hnd.
  rewrite delete_take_drop in Hr'.
  apply NoDup_app in Hnd as (_ & Hdisj & Hnd).
  apply NoDup_cons in Hnd as [Hfresh _].
  apply elem_of_app in Hr' as [Hr'|Hr'].
  - apply (Hdisj (row_key r')); [by apply list_elem_of_fmap_2|].
    rewrite Heq. left.
  - apply Hfresh. rewrite <- Heq. by apply list_elem_of_fmap_2.
Qed.

(** ** The handlers, evaluated *)

Section Authorized.
Variables (user_id : string) (current_user : User).
Hypothesis authorized : User_user_id current_user = user_id.

Lemma add_to_cart_run item b :
  let new_quantity := py_or (item_quantity item) 1 in
  let logged := interactions b ++ [cart_event item] in
  serve (add_to_cart user_id item current_user) b =
  match select_from (keyed_by user_id (item_product_id item)) 0
          (cart_items b) with
  | [] =>
      let new_item :=
        mkCartItemDB user_id (item_product_id item) new_quantity in
      mkServed (Returned tt)
        (mkBackend (cart_items b ++ [new_item]) logged)
        [ELogInteraction (cart_event item); EExecuteSelect;
         EAdd new_item; ECommit]
  | [(i, existing)] =>
      let q := row_quantity existing + new_quantity in
      mkServed (Returned tt)
        (mkBackend
           (alter (λ r, mkCartItemDB (row_user_id r) (row_product_id r) q)
              i (cart_items b))
           logged)
        [ELogInteraction (cart_event item); EExecuteSelect;
         ESetQuantity i q; ECommit]
  | _ =>
      mkServed (Raised MultipleResultsFound)
        (mkBackend (cart_items b) logged)
        [ELogInteraction (cart_event item); EExecuteSelect]
  end.
Proof.
  unfold serve, add_to_cart. rewrite bool_decide_eq_false_2 by tauto.
  unfold bind, log_interaction, execute, open_session, record. simpl.
  destruct (select_from _ 0 (cart_items b)) as [|[i r] [|x l]]; done.
Qed.

Lemma update_cart_run item b :
  serve (update_cart user_id item current_user) b =
  match select_from (keyed_by user_id (item_product_id item)) 0
          (cart_items b) with
  | [] =>
      mkServed
        (Raised (HTTPException HTTP_404_NOT_FOUND "Item not found in cart"))
        b [EExecuteSelect]
  | [(i, existing)] =>
      match item_quantity item with
      | None => mkServed (Raised TypeError) b [EExecuteSelect]
      | Some q =>
          if Z.leb q 0 then
            mkServed (Returned tt)
              (mkBackend (delete i (cart_items b)) (interactions b))
              [EExecuteSelect; EDelete i; ECommit]
          else
            mkServed (Returned tt)
              (mkBackend
                 (alter
                    (λ r, mkCartItemDB (row_user_id r) (row_product_id r) q)
                    i (cart_items b))
                 (interactions b))
              [EExecuteSelect; ESetQuantity i q; ECommit]
      end
  | _ => mkServed (Raised MultipleResultsFound) b [EExecuteSelect]
  end.
Proof.
  unfold serve, update_cart. rewrite bool_decide_eq_false_2 by tauto.
  unfold bind, execute, open_session, record. simpl.
  destruct (select_from _ 0 (cart_items b)) as [|[i r] [|x l]]; try done.
  simpl. destruct (item_quantity item) as [q|]; [|done].
  destruct (Z.leb q 0); done.
Qed.

Lemma get_cart_run b :
  serve (get_cart user_id current_user) b =
  mkServed
    (Returned
       (as_item <$> filter (λ r, row_user_id r = user_id) (cart_items b)))
    b [EExecuteSelect].
Proof.
  unfold serve, get_cart. rewrite bool_decide_eq_false_2 by tauto.
  unfold bind, execute, open_session, record. simpl. do 2 f_equal.
  rewrite (list_filter_iff _ (λ r, owned_by user_id r = true)).
  - by rewrite <- (select_from_rows _ 0%nat), <- list_fmap_compose.
  - intros r. unfold owned_by. by rewrite bool_decide_eq_true.
Qed.

Lemma remove_from_cart_run item b :
  serve (remove_from_cart user_id item current_user) b =
  mkServed (Raised (NameError "delete")) b [].
Proof.
  unfold serve, remove_from_cart. by rewrite bool_decide_eq_false_2 by tauto.
Qed.

End Authorized.

(** With [delete] bound to SQLAlchemy's constructor the handler still
    fails: the DELETE statement returns no rows for
    [scalar_one_or_none] to read, and the rows it removed in the session
    are never committed. *)
Lemma remove_from_cart_rest_run user_id item b :
  serve (remove_from_cart_rest user_id item) b =
  mkServed (Raised ResourceClosedError) b [EExecuteDelete].
Proof. by destruct b. Qed.

Section Forbidden.
Variables (user_id : string) (current_user : User).
Hypothesis foreign : User_user_id current_user ≠ user_id.

Lemma get_cart_forbidden b :
  serve (get_cart user_id current_user) b =
  mkServed
    (Raised (HTTPException 403 "You can only access your own cart")) b [].
Proof. unfold serve, get_cart. by rewrite bool_decide_eq_true_2. Qed.

Lemma add_to_cart_forbidden item b :
  serve (add_to_cart user_id item current_user) b =
  mkServed
    (Raised (HTTPException 403 "You can only add items to your own cart"))
    b [].
Proof. unfold serve, add_to_cart. by rewrite bool_decide_eq_true_2. Qed.

Lemma update_cart_forbidden item b :
  serve (update_cart user_id item current_user) b =
  mkServed
    (Raised (HTTPException 403 "You can only update your own cart")) b [].
Proof. unfold serve, update_cart. by rewrite bool_decide_eq_true_2. Qed.

Lemma remove_from_cart_forbidden item b :
  serve (remove_from_cart user_id item current_user) b =
  mkServed
    (Raised
       (HTTPException 403 "You can only remove items from your own cart"))
    b [].
Proof. unfold serve, remove_from_cart. by rewrite bool_decide_eq_true_2. Qed.

End Forbidden.

(** ** Further facts about selection and filtering *)

Lemma select_from_elem w n l i r :
  (i, r) ∈ select_from w n l →
  ∃ j, i = (n + j)%nat ∧ l !! j = Some r ∧ w r = true.
Proof.
  revert n. induction l as [|r0 l IH]; intros n Hin; simpl in Hin.
  { by apply elem_of_nil in Hin. }
  destruct (w r0) eqn:Hw.
  - apply elem_of_cons in Hin as [[= -> ->]|Hin].
    + exists 0%nat. split; [lia|done].
    + destruct (IH _ Hin) as (j & -> & Hj & Hr).
      exists (S j). split; [lia|done].
  - destruct (IH _ Hin) as (j & -> & Hj & Hr).
    exists (S j). split; [lia|done].
Qed.

(** Under unique keys a lookup by key finds nothing or exactly one row. *)
Lemma select_from_at_most_one u p l :
  keys_unique l →
  (select_from (keyed_by u p) 0 l = [] ∧ ∀ r, r ∈ l → row_key r ≠ (u, p))
  ∨ (∃ i r, l !! i = Some r ∧ row_key r = (u, p)
            ∧ select_from (keyed_by u p) 0 l = [(i, r)]).
Proof.
  intros Hnd.
  destruct (decide (Exists (λ r, row_key r = (u, p)) l)) as [Hex|Hno].
  - right. apply Exists_exists in Hex as (r & Hr & Hk).
    apply list_elem_of_lookup_1 in Hr as [i Hi].
    exists i, r. split_and!; [done..|].
    by rewrite (select_from_unique u p 0 l i r).
  - left. rewrite <- Forall_Exists_neg, Forall_forall in Hno.
    split; [by apply select_from_absent|done].
Qed.

Lemma filter_insert_other {A} (P : A → Prop) `{!∀ x, Decision (P x)}
    (l : list A) i x y :
  l !! i = Some x → ¬ P x → ¬ P y → filter P (<[i := y]> l) = filter P l.
Proof.
  revert i. induction l as [|a l IH]; intros i Hi Hx Hy; [done|].
  destruct i as [|i]; simpl in Hi |- *.
  - injection Hi as ->. by rewrite !filter_cons_False.
  - rewrite !filter_cons, (IH i) by done. done.
Qed.

(** ** Authorization *)

(** C1. In each of the four handlers, a caller whose resolved identity is
    not the [user_id] of the path is answered with 403 Forbidden before
    anything else runs: no call reaches the session or the interaction
    log, and the backend, hence every user's stored cart, is unchanged. *)
Theorem foreign_caller_is_refused user_id item current_user b :
  User_user_id current_user ≠ user_id →
  refused b (serve (get_cart user_id current_user) b)
  ∧ refused b (serve (add_to_cart user_id item current_user) b)
  ∧ refused b (serve (update_cart user_id item current_user) b)
  ∧ refused b (serve (remove_from_cart user_id item current_user) b).
Proof.
  intros Hforeign. unfold refused.
  rewrite get_cart_forbidden, add_to_cart_forbidden,
    update_cart_forbidden, remove_from_cart_forbidden by done.
  simpl. split_and!; eauto.
Qed.

Lemma foreign_caller_is_refused_witness :
  let b := mkBackend [mkCartItemDB "alice" "sku1" 2;
                      mkCartItemDB "bob" "sku1" 1] [] in
  let item := mkCartItem "alice" "sku1" (Some 3) in
  User_user_id (mkUser "bob") ≠ "alice"
  ∧ refused b (serve (get_cart "alice" (mkUser "bob")) b)
  ∧ refused b (serve (add_to_cart "alice" item (mkUser "bob")) b)
  ∧ refused b (serve (update_cart "alice" item (mkUser "bob")) b)
  ∧ refused b (serve (remove_from_cart "alice" item (mkUser "bob")) b).
Proof.
  intros b item.
  assert (User_user_id (mkUser "bob") ≠ "alice") as Hne by (simpl; congruence).
  split; [exact Hne|].
  exact (foreign_caller_is_refused "alice" item (mkUser "bob") b Hne).
Defined.

(** ** Adding to the cart *)

Section AddToCart.
Variables (user_id : string) (item : CartItem) (current_user : User).
Variable b : Backend.
Hypothesis authorized : User_user_id current_user = user_id.

Let product_id := item_product_id item.
Let n := py_or (item_quantity item) 1.
Let s := serve (add_to_cart user_id item current_user) b.

Lemma add_to_cart_existing i r :
  keys_unique (cart_items b) →
  cart_items b !! i = Some r → row_key r = (user_id, product_id) →
  s = mkServed (Returned tt)
        (mkBackend
           (<[i := with_quantity (row_quantity r + n) r]> (cart_items b))
           (interactions b ++ [cart_event item]))
        [ELogInteraction (cart_event item); EExecuteSelect;
         ESetQuantity i (row_quantity r + n); ECommit].
Proof.
  intros Hnd Hi Hk. subst s. rewrite add_to_cart_run by done.
  rewrite (select_from_unique _ _ 0 _ i r) by done. simpl.
  by rewrite (alter_with_quantity _ _ _ r).
Qed.

Lemma add_to_cart_absent :
  (∀ r, r ∈ cart_items b → row_key r ≠ (user_id, product_id)) →
  s = mkServed (Returned tt)
        (mkBackend (cart_items b ++ [mkCartItemDB user_id product_id n])
           (interactions b ++ [cart_event item]))
        [ELogInteraction (cart_event item); EExecuteSelect;
         EAdd (mkCartItemDB user_id product_id n); ECommit].
Proof.
  intros Hno. subst s. rewrite add_to_cart_run by done.
  by rewrite select_from_absent.
Qed.

Lemma add_to_cart_succeeds :
  keys_unique (cart_items b) → outcome s = Returned tt.
Proof.
  intros Hnd.
  destruct (select_from_at_most_one user_id product_id _ Hnd)
    as [[_ Hno]|(i & r & Hi & Hk & _)].
  - by rewrite add_to_cart_absent.
  - by rewrite (add_to_cart_existing i r).
Qed.

(** The log write does not depend on what the lookup finds. *)
Lemma add_to_cart_logged :
  interactions (after s) = interactions b ++ [cart_event item]
  ∧ ∃ rest, calls s
            = ELogInteraction (cart_event item) :: EExecuteSelect :: rest
            ∧ (rest = [] ∨ ∃ change, is_mutation change = true
                                     ∧ rest = [change; ECommit]).
Proof.
  subst s. rewrite add_to_cart_run by done.
  destruct (select_from _ 0 (cart_items b)) as [|[i r] [|x l]]; simpl;
    (split; [done|]); eexists; (split; [done|]).
  - right. by eexists (EAdd _).
  - right. by eexists (ESetQuantity _ _).
  - by left.
Qed.

End AddToCart.

Lemma keys_unique_snoc l r :
  keys_unique l → (∀ r', r' ∈ l → row_key r' ≠ row_key r) →
  keys_unique (l ++ [r]).
Proof.
  unfold keys_unique. intros Hnd Hno. rewrite fmap_app. apply NoDup_app.
  split_and!; [done| |apply NoDup_singleton].
  intros k Hk Hk'. apply list_elem_of_singleton in Hk' as ->.
  apply list_elem_of_fmap in Hk as (r' & Heq & Hr'). by apply (Hno r').
Qed.

(** C4. An authorized [add_to_cart] returns with no content.  When a row
    keyed by the path's user and the item's product is stored, its
    quantity grows by the item's quantity; when none is, a row with that
    quantity is appended.  The quantity counts as 1 when the body has
    none or has 0.  Hence two additions of 2 to a cart that does not hold
    the product leave a single row of quantity 4. *)
Theorem add_to_cart_creates_or_accumulates user_id item current_user b :
  User_user_id current_user = user_id →
  keys_unique (cart_items b) →
  let product_id := item_product_id item in
  let n := py_or (item_quantity item) 1 in
  let add := serve (add_to_cart user_id item current_user) in
  outcome (add b) = Returned tt
  ∧ http_status 204 (outcome (add b)) = 204
  ∧ (∀ i r, cart_items b !! i = Some r →
            row_key r = (user_id, product_id) →
            cart_items (after (add b))
            = <[i := with_quantity (row_quantity r + n) r]> (cart_items b))
  ∧ ((∀ r, r ∈ cart_items b → row_key r ≠ (user_id, product_id)) →
     cart_items (after (add b))
     = cart_items b ++ [mkCartItemDB user_id product_id n])
  ∧ (item_quantity item = None ∨ item_quantity item = Some 0 → n = 1)
  ∧ (∀ q, item_quantity item = Some q → q ≠ 0 → n = q)
  ∧ ((∀ r, r ∈ cart_items b → row_key r ≠ (user_id, product_id)) →
     item_quantity item = Some 2 →
     cart_items (after (add (after (add b))))
     = cart_items b ++ [mkCartItemDB user_id product_id 4]).
Proof.
  intros Hauth Hnd product_id n add. subst add.
  assert (outcome (serve (add_to_cart user_id item current_user) b)
          = Returned tt) as Hok by by apply add_to_cart_succeeds.
  split_and!.
  - done.
  - by rewrite Hok.
  - intros i r Hi Hk. by rewrite (add_to_cart_existing _ _ _ _ Hauth i r).
  - intros Hno. by rewrite add_to_cart_absent.
  - subst n. by intros [-> | ->].
  - subst n. intros q -> Hq. simpl. by rewrite (proj2 (Z.eqb_neq q 0) Hq).
  - intros Hno Hq. rewrite (add_to_cart_absent _ _ _ b Hauth Hno).
    set (new := mkCartItemDB user_id (item_product_id item)
                  (py_or (item_quantity item) 1)).
    simpl.
    rewrite (add_to_cart_existing _ _ _ _ Hauth (length (cart_items b)) new).
    + simpl. replace (length (cart_items b))
        with (length (cart_items b) + 0)%nat at 1 by lia.
      rewrite insert_app_r. subst new. by rewrite Hq.
    + simpl. by apply keys_unique_snoc.
    + simpl. by apply list_lookup_middle.
    + done.
Qed.

Lemma add_to_cart_creates_or_accumulates_witness :
  let b := mkBackend [] [] in
  let item := mkCartItem "alice" "sku1" (Some 2) in
  let add := serve (add_to_cart "alice" item (mkUser "alice")) in
  (User_user_id (mkUser "alice") = "alice" ∧ keys_unique (cart_items b))
  ∧ cart_items (after (add (after (add b))))
    = [mkCartItemDB "alice" "sku1" 4].
Proof.
  intros b item add.
  assert (User_user_id (mkUser "alice") = "alice") as Hauth by reflexivity.
  assert (keys_unique (cart_items b)) as Hnd by (simpl; constructor).
  split; [by split|].
  destruct (add_to_cart_creates_or_accumulates
              "alice" item (mkUser "alice") b Hauth Hnd)
    as (_ & _ & _ & _ & _ & _ & Htwice).
  apply Htwice; [|reflexivity].
  intros r Hr. by apply elem_of_nil in Hr.
Defined.

(** C7. An authorized [add_to_cart] records one interaction whose actor
    is the body's [user_id] and whose subject is the body's [product_id].
    The write happens whatever the table holds and whatever becomes of
    the mutation, and it is the first call of the handler: the lookup,
    the change of the session and the commit come after it. *)
Theorem add_to_cart_logs_before_mutating user_id item current_user b :
  User_user_id current_user = user_id →
  let s := serve (add_to_cart user_id item current_user) b in
  let entry := mkInteraction (item_user_id item) (item_product_id item) CART in
  interactions (after s) = interactions b ++ [entry]
  ∧ ∃ rest, calls s = ELogInteraction entry :: EExecuteSelect :: rest
            ∧ (rest = [] ∨ ∃ change, is_mutation change = true
                                     ∧ rest = [change; ECommit]).
Proof. intros Hauth. by apply add_to_cart_logged. Qed.

Lemma add_to_cart_logs_before_mutating_witness :
  let b := mkBackend [mkCartItemDB "alice" "sku1" 2] [] in
  let item := mkCartItem "alice" "sku1" (Some 3) in
  let s := serve (add_to_cart "alice" item (mkUser "alice")) b in
  User_user_id (mkUser "alice") = "alice"
  ∧ interactions (after s) = [mkInteraction "alice" "sku1" CART].
Proof.
  intros b item s.
  assert (User_user_id (mkUser "alice") = "alice") as Hauth by reflexivity.
  split; [exact Hauth|].
  exact (proj1 (add_to_cart_logs_before_mutating
                  "alice" item (mkUser "alice") b Hauth)).
Defined.

(** C9. When the body of an authorized [add_to_cart] names another user
    than the path, the row that is looked up, incremented or created is
    the one keyed by the path's [user_id], the rows of the user named in
    the body stay as they are, and the interaction is logged under the
    body's [user_id]: the cart that changes and the actor that is logged
    belong to different users. *)
Theorem add_to_cart_keys_by_path_logs_by_body user_id item current_user b :
  User_user_id current_user = user_id →
  item_user_id item ≠ user_id →
  keys_unique (cart_items b) →
  let product_id := item_product_id item in
  let n := py_or (item_quantity item) 1 in
  let s := serve (add_to_cart user_id item current_user) b in
  (∀ i r, cart_items b !! i = Some r →
          row_key r = (user_id, product_id) →
          cart_items (after s)
          = <[i := mkCartItemDB user_id product_id (row_quantity r + n)]>
              (cart_items b))
  ∧ ((∀ r, r ∈ cart_items b → row_key r ≠ (user_id, product_id)) →
     cart_items (after s)
     = cart_items b ++ [mkCartItemDB user_id product_id n])
  ∧ filter (λ r, row_user_id r = item_user_id item) (cart_items (after s))
    = filter (λ r, row_user_id r = item_user_id item) (cart_items b)
  ∧ (∃ entry, interactions (after s) = interactions b ++ [entry]
              ∧ log_user_id entry = item_user_id item
              ∧ log_user_id entry ≠ user_id).
Proof.
  intros Hauth Hbody Hnd product_id n s.
  assert (∀ i r, cart_items b !! i = Some r →
            row_key r = (user_id, product_id) →
            cart_items (after s)
            = <[i := mkCartItemDB user_id product_id (row_quantity r + n)]>
                (cart_items b)) as Hfound.
  { intros i r Hi Hk. subst s.
    rewrite (add_to_cart_existing _ _ _ _ Hauth i r) by done.
    simpl. unfold with_quantity. by injection Hk as -> ->. }
  assert ((∀ r, r ∈ cart_items b → row_key r ≠ (user_id, product_id)) →
          cart_items (after s)
          = cart_items b ++ [mkCartItemDB user_id product_id n]) as Hnew.
  { intros Hno. subst s. by rewrite add_to_cart_absent. }
  split_and!; [done..| |].
  - destruct (select_from_at_most_one user_id product_id _ Hnd)
      as [[_ Hno]|(i & r & Hi & Hk & _)].
    + rewrite (Hnew Hno), filter_app, filter_cons_False, filter_nil.
      * by rewrite app_nil_r.
      * simpl. congruence.
    + rewrite (Hfound i r Hi Hk).
      apply (filter_insert_other _ _ i r); [done| |simpl; congruence].
      injection Hk as Hu _. congruence.
  - exists (cart_event item). split_and!; [|done..].
    apply (add_to_cart_logged _ _ _ _ Hauth).
Qed.

Lemma add_to_cart_keys_by_path_logs_by_body_witness :
  let b := mkBackend [mkCartItemDB "bob" "sku1" 7] [] in
  let item := mkCartItem "bob" "sku1" (Some 2) in
  let s := serve (add_to_cart "alice" item (mkUser "alice")) b in
  (User_user_id (mkUser "alice") = "alice"
   ∧ item_user_id item ≠ "alice"
   ∧ keys_unique (cart_items b))
  ∧ cart_items (after s)
    = [mkCartItemDB "bob" "sku1" 7; mkCartItemDB "alice" "sku1" 2].
Proof.
  intros b item s.
  assert (User_user_id (mkUser "alice") = "alice") as Hauth by reflexivity.
  assert (item_user_id item ≠ "alice") as Hbody by (simpl; congruence).
  assert (keys_unique (cart_items b)) as Hnd.
  { apply NoDup_singleton. }
  split; [by split_and!|].
  destruct (add_to_cart_keys_by_path_logs_by_body
              "alice" item (mkUser "alice") b Hauth Hbody Hnd)
    as (_ & Hnew & _).
  apply Hnew. intros r Hr. apply list_elem_of_singleton in Hr as ->.
  simpl. unfold row_key. simpl. congruence.
Defined.

(** ** Updating the cart *)

(** C5. An authorized [update_cart] on a stored row sets its quantity to
    the item's quantity when that is positive (it does not add to it),
    and deletes the row when it is zero or negative, after which
    [get_cart] lists no item for that product. *)
Theorem update_cart_overwrites_or_deletes
    user_id item current_user b i r q :
  User_user_id current_user = user_id →
  keys_unique (cart_items b) →
  cart_items b !! i = Some r →
  row_key r = (user_id, item_product_id item) →
  item_quantity item = Some q →
  let s := serve (update_cart user_id item current_user) b in
  outcome s = Returned tt
  ∧ (0 < q →
     cart_items (after s)
     = <[i := mkCartItemDB user_id (item_product_id item) q]> (cart_items b))
  ∧ (q ≤ 0 →
     cart_items (after s) = delete i (cart_items b)
     ∧ ∃ listed,
         outcome (serve (get_cart user_id current_user) (after s))
         = Returned listed
         ∧ ∀ c, c ∈ listed → item_product_id c ≠ item_product_id item).
Proof.
  intros Hauth Hnd Hi Hk Hq s. subst s.
  rewrite update_cart_run by done.
  rewrite (select_from_unique _ _ 0 _ i r) by done. simpl. rewrite Hq.
  destruct (Z.leb_spec q 0) as [Hle|Hgt]; simpl.
  - split_and!; [done|lia|]. intros _. split; [done|].
    rewrite get_cart_run by done. eexists. split; [done|].
    intros c Hc Hp. apply list_elem_of_fmap in Hc as (r' & -> & Hr').
    apply list_elem_of_filter in Hr' as [Hu Hr']. simpl in Hu, Hp.
    apply (delete_removes_key _ i r Hnd Hi r' Hr').
    rewrite Hk. unfold row_key. by rewrite Hu, Hp.
  - split_and!; [done| |lia]. intros _.
    rewrite (alter_with_quantity _ _ _ r) by done.
    unfold with_quantity. by injection Hk as -> ->.
Qed.

Lemma update_cart_overwrites_or_deletes_witness :
  let b := mkBackend [mkCartItemDB "alice" "sku1" 5] [] in
  let item := mkCartItem "alice" "sku1" (Some 3) in
  let s := serve (update_cart "alice" item (mkUser "alice")) b in
  (User_user_id (mkUser "alice") = "alice"
   ∧ keys_unique (cart_items b)
   ∧ cart_items b !! 0%nat = Some (mkCartItemDB "alice" "sku1" 5)
   ∧ row_key (mkCartItemDB "alice" "sku1" 5) = ("alice", item_product_id item)
   ∧ item_quantity item = Some 3)
  ∧ cart_items (after s) = [mkCartItemDB "alice" "sku1" 3].
Proof.
  intros b item s.
  assert (keys_unique (cart_items b)) as Hnd by apply NoDup_singleton.
  split; [by split_and!|].
  destruct (update_cart_overwrites_or_deletes
              "alice" item (mkUser "alice") b 0 (mkCartItemDB "alice" "sku1" 5)
              3 eq_refl Hnd eq_refl eq_refl eq_refl)
    as (_ & Hset & _).
  apply Hset. lia.
Defined.

(** C6. An authorized [update_cart] that finds no row for the path's user
    and the item's product is answered with 404 Not Found; the backend is
    unchanged and the only call made is the lookup. *)
Theorem update_cart_missing_row_not_found user_id item current_user b :
  User_user_id current_user = user_id →
  (∀ r, r ∈ cart_items b → row_key r ≠ (user_id, item_product_id item)) →
  let s := serve (update_cart user_id item current_user) b in
  outcome s
  = Raised (HTTPException HTTP_404_NOT_FOUND "Item not found in cart")
  ∧ http_status 204 (outcome s) = 404
  ∧ after s = b
  ∧ calls s = [EExecuteSelect].
Proof.
  intros Hauth Hno s. subst s. rewrite update_cart_run by done.
  by rewrite select_from_absent.
Qed.

Lemma update_cart_missing_row_not_found_witness :
  let b := mkBackend [mkCartItemDB "alice" "sku2" 5] [] in
  let item := mkCartItem "alice" "sku1" (Some 3) in
  let s := serve (update_cart "alice" item (mkUser "alice")) b in
  (User_user_id (mkUser "alice") = "alice"
   ∧ ∀ r, r ∈ cart_items b → row_key r ≠ ("alice", item_product_id item))
  ∧ http_status 204 (outcome s) = 404 ∧ after s = b.
Proof.
  intros b item s.
  assert (∀ r, r ∈ cart_items b → row_key r ≠ ("alice", item_product_id item))
    as Hno.
  { intros r Hr. apply list_elem_of_singleton in Hr as ->.
    unfold row_key. simpl. congruence. }
  split; [by split|].
  destruct (update_cart_missing_row_not_found
              "alice" item (mkUser "alice") b eq_refl Hno)
    as (_ & Hstatus & Hsame & _).
  by split.
Defined.

(** ** Listing the cart *)

(** C8. An authorized [get_cart] answers 200 with one item for each
    stored row of the path's user, in table order and with the row's
    user, product and quantity; with the empty list when the user has no
    row; and it leaves the table and the interaction log as they were,
    its only call being the SELECT. *)
Theorem get_cart_lists_own_rows user_id current_user b :
  User_user_id current_user = user_id →
  let s := serve (get_cart user_id current_user) b in
  let own := filter (λ r, row_user_id r = user_id) (cart_items b) in
  outcome s = Returned (as_item <$> own)
  ∧ http_status 200 (outcome s) = 200
  ∧ (∀ c, c ∈ as_item <$> own ↔
          ∃ r, r ∈ cart_items b ∧ row_user_id r = user_id ∧ c = as_item r)
  ∧ ((∀ r, r ∈ cart_items b → row_user_id r ≠ user_id) →
     outcome s = Returned [])
  ∧ after s = b
  ∧ calls s = [EExecuteSelect].
Proof.
  intros Hauth s own. subst s own. rewrite get_cart_run by done. simpl.
  split_and!; [done..| | |done|done].
  - intros c. rewrite list_elem_of_fmap. split.
    + intros (r & -> & [Hu Hr]%list_elem_of_filter). by exists r.
    + intros (r & Hr & Hu & ->). exists r. split; [done|].
      by apply list_elem_of_filter.
  - intros Hno. do 2 f_equal.
    induction (cart_items b) as [|r l IH]; [done|].
    rewrite filter_cons_False by (apply Hno; left).
    apply IH. intros r' Hr'. apply Hno. by right.
Qed.

Lemma get_cart_lists_own_rows_witness :
  let b := mkBackend [mkCartItemDB "bob" "sku1" 4;
                      mkCartItemDB "alice" "sku1" 5;
                      mkCartItemDB "alice" "sku2" 1] [] in
  let s := serve (get_cart "alice" (mkUser "alice")) b in
  User_user_id (mkUser "alice") = "alice"
  ∧ outcome s = Returned [mkCartItem "alice" "sku1" (Some 5);
                          mkCartItem "alice" "sku2" (Some 1)].
Proof.
  intros b s. split; [reflexivity|].
  exact (proj1 (get_cart_lists_own_rows "alice" (mkUser "alice") b eq_refl)).
Defined.

(** ** Writes to the interaction log *)

(** C10. [get_cart], [update_cart] and [remove_from_cart] never write to
    the interaction log, whatever the caller, the body and the table, and
    whether they succeed, refuse the caller or fail; [add_to_cart] writes
    one record exactly when the caller passes its authorization check. *)
Theorem only_add_to_cart_logs user_id item current_user b :
  interactions (after (serve (get_cart user_id current_user) b))
  = interactions b
  ∧ interactions (after (serve (update_cart user_id item current_user) b))
    = interactions b
  ∧ interactions (after (serve (remove_from_cart user_id item current_user) b))
    = interactions b
  ∧ interactions (after (serve (add_to_cart user_id item current_user) b))
    = (if bool_decide (User_user_id current_user = user_id)
       then interactions b ++ [cart_event item]
       else interactions b).
Proof.
  destruct (decide (User_user_id current_user = user_id)) as [Hauth|Hforeign].
  - rewrite bool_decide_eq_true_2 by done.
    rewrite get_cart_run, update_cart_run, remove_from_cart_run by done.
    split_and!; [done| |done|by apply add_to_cart_logged].
    destruct (select_from _ 0 (cart_items b)) as [|[i r] [|x l]]; try done.
    destruct (item_quantity item) as [q|]; [|done].
    by destruct (Z.leb q 0).
  - rewrite bool_decide_eq_false_2 by done.
    by rewrite get_cart_forbidden, update_cart_forbidden,
      remove_from_cart_forbidden, add_to_cart_forbidden.
Qed.

(** ** The key invariant *)

(** Both mutating handlers keep the keys of the table unique. *)
Lemma add_to_cart_keeps_keys_unique user_id item current_user b :
  keys_unique (cart_items b) →
  keys_unique
    (cart_items (after (serve (add_to_cart user_id item current_user) b))).
Proof.
  intros Hnd.
  destruct (decide (User_user_id current_user = user_id)) as [Hauth|Hforeign];
    [|by rewrite add_to_cart_forbidden].
  destruct (select_from_at_most_one user_id (item_product_id item) _ Hnd)
    as [[_ Hno]|(i & r & Hi & Hk & _)].
  - rewrite add_to_cart_absent by done. simpl. by apply keys_unique_snoc.
  - rewrite (add_to_cart_existing _ _ _ _ Hauth i r) by done. simpl.
    unfold keys_unique. by rewrite keys_insert_with_quantity.
Qed.

Lemma update_cart_keeps_keys_unique user_id item current_user b :
  keys_unique (cart_items b) →
  keys_unique
    (cart_items (after (serve (update_cart user_id item current_user) b))).
Proof.
  intros Hnd.
  destruct (decide (User_user_id current_user = user_id)) as [Hauth|Hforeign];
    [|by rewrite update_cart_forbidden].
  rewrite update_cart_run by done.
  destruct (select_from_at_most_one user_id (item_product_id item) _ Hnd)
    as [[-> _]|(i & r & Hi & Hk & ->)]; [done|].
  destruct (item_quantity item) as [q|]; [|done].
  destruct (Z.leb q 0); simpl; unfold keys_unique.
  - rewrite list_fmap_delete. eapply sublist_NoDup; [exact Hnd|].
    apply sublist_delete.
  - rewrite (alter_with_quantity _ _ _ r) by done.
    by rewrite keys_insert_with_quantity.
Qed.

(** ** The quantity invariant *)

(** [update_cart] keeps every stored quantity at 1 or more. *)
Lemma update_cart_keeps_quantities_positive user_id item current_user b :
  quantities_positive (cart_items b) →
  quantities_positive
    (cart_items (after (serve (update_cart user_id item current_user) b))).
Proof.
  intros Hpos.
  destruct (decide (User_user_id current_user = user_id)) as [Hauth|Hforeign];
    [|by rewrite update_cart_forbidden].
  rewrite update_cart_run by done.
  destruct (select_from _ 0 (cart_items b)) as [|[i r] [|x l]]; try done.
  destruct (item_quantity item) as [q|]; [|done].
  destruct (Z.leb_spec q 0); simpl.
  - by apply Forall_delete.
  - apply Forall_alter; [done|]. intros; simpl; lia.
Qed.

(** So does [add_to_cart], as long as the body's quantity is not
    negative. *)
Lemma add_to_cart_keeps_quantities_positive user_id item current_user b :
  (∀ q, item_quantity item = Some q → 0 ≤ q) →
  quantities_positive (cart_items b) →
  quantities_positive
    (cart_items (after (serve (add_to_cart user_id item current_user) b))).
Proof.
  intros Hq Hpos.
  assert (1 ≤ py_or (item_quantity item) 1) as Hn.
  { unfold py_or. destruct (item_quantity item) as [q|]; [|lia].
    specialize (Hq q eq_refl). destruct (Z.eqb_spec q 0); lia. }
  destruct (decide (User_user_id current_user = user_id)) as [Hauth|Hforeign];
    [|by rewrite add_to_cart_forbidden].
  rewrite add_to_cart_run by done.
  destruct (select_from _ 0 (cart_items b)) as [|[i r] [|x l]] eqn:Hsel;
    try done; simpl.
  - apply Forall_app. split; [done|]. by repeat constructor.
  - assert ((i, r) ∈ select_from
              (keyed_by user_id (item_product_id item)) 0 (cart_items b))
      as Hin by (rewrite Hsel; left).
    apply select_from_elem in Hin as (j & -> & Hj & _).
    assert (1 ≤ row_quantity r).
    { unfold quantities_positive in Hpos. rewrite Forall_forall in Hpos.
      apply Hpos. by eapply list_elem_of_lookup_2. }
    apply Forall_alter; [done|]. intros; simpl; lia.
Qed.

(** C2. The invariant that every stored row has a quantity of 1 or more
    does not survive [add_to_cart]: the default of 1 replaces a missing
    or zero quantity only, so a negative quantity is stored as it is on a
    new row, and an existing row of quantity 2 that receives -2 is left
    with quantity 0. *)
Theorem add_to_cart_stores_nonpositive_quantity :
  let alice := mkUser "alice" in
  let empty := mkBackend [] [] in
  let s := serve (add_to_cart "alice"
                    (mkCartItem "alice" "sku1" (Some (-5))) alice) empty in
  let two := mkBackend [mkCartItemDB "alice" "sku1" 2] [] in
  let s' := serve (add_to_cart "alice"
                     (mkCartItem "alice" "sku1" (Some (-2))) alice) two in
  (quantities_positive (cart_items empty)
   ∧ outcome s = Returned tt
   ∧ cart_items (after s) = [mkCartItemDB "alice" "sku1" (-5)]
   ∧ ¬ quantities_positive (cart_items (after s)))
  ∧ (quantities_positive (cart_items two)
     ∧ outcome s' = Returned tt
     ∧ cart_items (after s') = [mkCartItemDB "alice" "sku1" 0]
     ∧ ¬ quantities_positive (cart_items (after s'))).
Proof.
  unfold quantities_positive. simpl.
  split; (split_and!; [repeat constructor; simpl; lia|done|done|]);
    intros Hpos; apply Forall_inv in Hpos; simpl in Hpos; lia.
Qed.

(** ** Removing from the cart *)

(** No authorized call of [remove_from_cart] gets past the construction
    of its statement. *)
Lemma remove_from_cart_always_fails user_id item current_user b :
  User_user_id current_user = user_id →
  let s := serve (remove_from_cart user_id item current_user) b in
  http_status 204 (outcome s) = 500 ∧ after s = b ∧ calls s = [].
Proof. intros Hauth. by rewrite remove_from_cart_run. Qed.

(** C3. [remove_from_cart] does not do what the contract asks of it.  On
    a stored row the authorized call ends in an unhandled [NameError]
    (status 500) and the row stays; on a missing row it ends the same way
    instead of 404.  Binding [delete] would not repair it: the remaining
    statements end in [ResourceClosedError] with nothing committed. *)
Theorem remove_from_cart_keeps_existing_row :
  let alice := mkUser "alice" in
  let b := mkBackend [mkCartItemDB "alice" "sku1" 4] [] in
  let present := mkCartItem "alice" "sku1" (Some 4) in
  let missing := mkCartItem "alice" "sku2" None in
  (let s := serve (remove_from_cart "alice" present alice) b in
   outcome s = Raised (NameError "delete")
   ∧ http_status 204 (outcome s) = 500
   ∧ cart_items (after s) = [mkCartItemDB "alice" "sku1" 4])
  ∧ (let s := serve (remove_from_cart "alice" missing alice) b in
     outcome s = Raised (NameError "delete")
     ∧ http_status 204 (outcome s) = 500)
  ∧ (let s := serve (remove_from_cart_rest "alice" present) b in
     outcome s = Raised ResourceClosedError
     ∧ cart_items (after s) = [mkCartItemDB "alice" "sku1" 4]).
Proof. simpl. by split_and!. Qed.

(** * Further properties of the handlers *)

(** ** More on selection *)

Lemma select_from_app w n l1 l2 :
  select_from w n (l1 ++ l2)
  = select_from w n l1 ++ select_from w (n + length l1) l2.
Proof.
  revert n. induction l1 as [|r l1 IH]; intros n; simpl.
  - by rewrite Nat.add_0_r.
  - rewrite IH. replace (S n + length l1)%nat with (n + S (length l1))%nat
      by lia.
    by destruct (w r).
Qed.

Lemma select_from_single w l i r :
  select_from w 0 l = [(i, r)] → l !! i = Some r ∧ w r = true.
Proof.
  intros Hsel.
  assert ((i, r) ∈ select_from w 0 l) as Hin by (rewrite Hsel; left).
  apply select_from_elem in Hin as (j & -> & Hj & Hw). done.
Qed.

Lemma select_from_nonempty w n l j r :
  l !! j = Some r → w r = true → select_from w n l ≠ [].
Proof.
  revert n j. induction l as [|r0 l IH]; intros n j Hj Hw; [done|].
  simpl. destruct (w r0) eqn:Hw0; [done|].
  destruct j as [|j]; simpl in Hj.
  - injection Hj as ->. congruence.
  - by apply (IH (S n) j).
Qed.

(** Two matching rows make the selection at least two rows long. *)
Lemma select_from_two w n l i j r1 r2 :
  (i < j)%nat → l !! i = Some r1 → l !! j = Some r2 →
  w r1 = true → w r2 = true →
  ∃ x y rest, select_from w n l = x :: y :: rest.
Proof.
  revert n i j. induction l as [|r0 l IH]; intros n i j Hlt Hi Hj H1 H2;
    [done|].
  destruct j as [|j]; [lia|]. simpl in Hj.
  destruct i as [|i]; simpl in Hi.
  - injection Hi as ->. simpl. rewrite H1.
    destruct (select_from w (S n) l) as [|y rest] eqn:Hsel.
    + by apply (select_from_nonempty w (S n) l j r2) in Hsel.
    + by eexists _, _, _.
  - destruct (IH (S n) i j) as (x & y & rest & Hsel); [lia|done..|].
    simpl. rewrite Hsel. destruct (w r0); by eexists _, _, _.
Qed.

Lemma filter_delete_other {A} (P : A → Prop) `{!∀ x, Decision (P x)}
    (l : list A) i x :
  l !! i = Some x → ¬ P x → filter P (delete i l) = filter P l.
Proof.
  revert i. induction l as [|a l IH]; intros i Hi Hx; [done|].
  destruct i as [|i]; simpl in Hi |- *.
  - injection Hi as ->. by rewrite filter_cons_False.
  - by rewrite !filter_cons, (IH i).
Qed.


(** ** Failure is atomic *)

(** X1. A request that ends in an exception, of whatever kind and in
    whichever of the four handlers, leaves the committed cart table as it
    found it: rows change only on the paths that reach [db.commit()]. *)
Theorem failed_request_commits_nothing user_id item current_user b e :
  (outcome (serve (get_cart user_id current_user) b) = Raised e →
   cart_items (after (serve (get_cart user_id current_user) b))
   = cart_items b)
  ∧ (outcome (serve (add_to_cart user_id item current_user) b) = Raised e →
     cart_items (after (serve (add_to_cart user_id item current_user) b))
     = cart_items b)
  ∧ (outcome (serve (update_cart user_id item current_user) b) = Raised e →
     cart_items (after (serve (update_cart user_id item current_user) b))
     = cart_items b)
  ∧ (outcome (serve (remove_from_cart user_id item current_user) b)
     = Raised e →
     cart_items (after (serve (remove_from_cart user_id item current_user) b))
     = cart_items b).
Proof.
  destruct (decide (User_user_id current_user = user_id)) as [Hauth|Hforeign].
  - rewrite get_cart_run, add_to_cart_run, update_cart_run,
      remove_from_cart_run by done.
    split_and!; try done.
    + by destruct (select_from _ 0 (cart_items b)) as [|[i r] [|x l]].
    + destruct (select_from _ 0 (cart_items b)) as [|[i r] [|x l]];
        try done.
      destruct (item_quantity item) as [q|]; [|done].
      by destruct (Z.leb q 0).
  - by rewrite get_cart_forbidden, add_to_cart_forbidden,
      update_cart_forbidden, remove_from_cart_forbidden.
Qed.

Lemma failed_request_commits_nothing_witness :
  let b := mkBackend [mkCartItemDB "alice" "sku1" 4;
                      mkCartItemDB "alice" "sku1" 1] [] in
  let item := mkCartItem "alice" "sku1" (Some 3) in
  let s := serve (add_to_cart "alice" item (mkUser "alice")) b in
  outcome s = Raised MultipleResultsFound
  ∧ cart_items (after s) = cart_items b.
Proof.
  intros b item s.
  assert (outcome s = Raised MultipleResultsFound) as Hfail by reflexivity.
  split; [exact Hfail|].
  exact (proj1 (proj2 (failed_request_commits_nothing
                         "alice" item (mkUser "alice") b
                         MultipleResultsFound)) Hfail).
Defined.

(** ** Isolation between users *)

(** X2. No request changes the rows of a user other than the caller:
    whoever the path and the body name, the rows stored for any user
    [v] that is not the resolved identity are the same, in the same
    order, after [add_to_cart], [update_cart], [remove_from_cart] and
    [get_cart]. *)
Theorem other_users_rows_untouched user_id item current_user b v :
  v ≠ User_user_id current_user →
  let rows_of (l : list CartItemDB) := filter (λ r, row_user_id r = v) l in
  rows_of (cart_items (after (serve (add_to_cart user_id item current_user) b)))
  = rows_of (cart_items b)
  ∧ rows_of
      (cart_items (after (serve (update_cart user_id item current_user) b)))
    = rows_of (cart_items b)
  ∧ rows_of
      (cart_items
         (after (serve (remove_from_cart user_id item current_user) b)))
    = rows_of (cart_items b)
  ∧ rows_of (cart_items (after (serve (get_cart user_id current_user) b)))
    = rows_of (cart_items b).
Proof.
  intros Hv rows_of. subst rows_of.
  destruct (decide (User_user_id current_user = user_id)) as [Hauth|Hforeign];
    [|by rewrite get_cart_forbidden, add_to_cart_forbidden,
         update_cart_forbidden, remove_from_cart_forbidden].
  rewrite get_cart_run, add_to_cart_run, update_cart_run,
    remove_from_cart_run by done.
  split_and!; try done.
  - destruct (select_from _ 0 (cart_items b)) as [|[i r] [|x l]] eqn:Hsel;
      try done; simpl.
    + rewrite filter_app, filter_cons_False, filter_nil by (simpl; congruence).
      by rewrite app_nil_r.
    + apply select_from_single in Hsel as [Hi Hk].
      apply keyed_by_true in Hk. injection Hk as Hu _.
      rewrite (alter_with_quantity _ _ _ r) by done.
      apply (filter_insert_other _ _ i r); [done|congruence|simpl; congruence].
  - destruct (select_from _ 0 (cart_items b)) as [|[i r] [|x l]] eqn:Hsel;
      try done.
    apply select_from_single in Hsel as [Hi Hk].
    apply keyed_by_true in Hk. injection Hk as Hu _.
    destruct (item_quantity item) as [q|]; [|done].
    destruct (Z.leb q 0); simpl.
    + apply (filter_delete_other _ _ i r); [done|congruence].
    + rewrite (alter_with_quantity _ _ _ r) by done.
      apply (filter_insert_other _ _ i r); [done|congruence|simpl; congruence].
Qed.

Lemma other_users_rows_untouched_witness :
  let b := mkBackend [mkCartItemDB "bob" "sku1" 7;
                      mkCartItemDB "alice" "sku1" 2] [] in
  let item := mkCartItem "bob" "sku1" (Some 0) in
  "bob" ≠ User_user_id (mkUser "alice")
  ∧ filter (λ r, row_user_id r = "bob")
      (cart_items (after (serve (update_cart "alice" item (mkUser "alice")) b)))
    = [mkCartItemDB "bob" "sku1" 7].
Proof.
  intros b item.
  assert ("bob" ≠ User_user_id (mkUser "alice")) as Hv by (simpl; congruence).
  split; [exact Hv|].
  exact (proj1 (proj2 (other_users_rows_untouched
                         "alice" item (mkUser "alice") b "bob" Hv))).
Defined.

(** ** Lookups that cannot be answered *)

(** X3. When two rows are stored for the path's user and the item's
    product, [scalar_one_or_none] raises: an authorized [add_to_cart] or
    [update_cart] ends in [MultipleResultsFound] (status 500) and the
    table is left as it was. *)
Theorem duplicate_rows_fail_the_lookup
    user_id item current_user b i j r1 r2 :
  User_user_id current_user = user_id →
  i ≠ j →
  cart_items b !! i = Some r1 → cart_items b !! j = Some r2 →
  row_key r1 = (user_id, item_product_id item) →
  row_key r2 = (user_id, item_product_id item) →
  let added := serve (add_to_cart user_id item current_user) b in
  let updated := serve (update_cart user_id item current_user) b in
  outcome added = Raised MultipleResultsFound
  ∧ http_status 204 (outcome added) = 500
  ∧ cart_items (after added) = cart_items b
  ∧ outcome updated = Raised MultipleResultsFound
  ∧ http_status 204 (outcome updated) = 500
  ∧ after updated = b.
Proof.
  intros Hauth Hij Hi Hj H1 H2 added updated. subst added updated.
  apply keyed_by_true in H1, H2.
  assert (∃ x y rest,
            select_from (keyed_by user_id (item_product_id item)) 0
              (cart_items b) = x :: y :: rest) as (x & y & rest & Hsel).
  { destruct (Nat.lt_total i j) as [Hlt|[Heq|Hgt]]; [|done|].
    - by apply (select_from_two _ _ _ i j r1 r2).
    - by apply (select_from_two _ _ _ j i r2 r1). }
  rewrite add_to_cart_run, update_cart_run by done. rewrite Hsel.
  by destruct x, y.
Qed.

Lemma duplicate_rows_fail_the_lookup_witness :
  let b := mkBackend [mkCartItemDB "alice" "sku1" 4;
                      mkCartItemDB "alice" "sku1" 1] [] in
  let item := mkCartItem "alice" "sku1" (Some 3) in
  (User_user_id (mkUser "alice") = "alice" ∧ 0%nat ≠ 1%nat
   ∧ cart_items b !! 0%nat = Some (mkCartItemDB "alice" "sku1" 4)
   ∧ cart_items b !! 1%nat = Some (mkCartItemDB "alice" "sku1" 1))
  ∧ http_status 204
      (outcome (serve (update_cart "alice" item (mkUser "alice")) b)) = 500.
Proof.
  intros b item.
  assert (0%nat ≠ 1%nat) as Hij by lia.
  split; [by split_and!|].
  destruct (duplicate_rows_fail_the_lookup
              "alice" item (mkUser "alice") b 0 1
              (mkCartItemDB "alice" "sku1" 4) (mkCartItemDB "alice" "sku1" 1)
              eq_refl Hij eq_refl eq_refl eq_refl eq_refl)
    as (_ & _ & _ & _ & Hstatus & _).
  exact Hstatus.
Defined.

(** X4. An authorized [update_cart] whose body carries no quantity fails
    on a stored row: the comparison [item.quantity <= 0] raises
    [TypeError] (status 500) after the lookup, and nothing is changed.
    On a missing row the same body is answered with 404, the lookup
    coming first. *)
Theorem update_cart_without_quantity user_id item current_user b :
  User_user_id current_user = user_id →
  keys_unique (cart_items b) →
  item_quantity item = None →
  let s := serve (update_cart user_id item current_user) b in
  after s = b ∧ calls s = [EExecuteSelect]
  ∧ (∀ i r, cart_items b !! i = Some r →
            row_key r = (user_id, item_product_id item) →
            outcome s = Raised TypeError ∧ http_status 204 (outcome s) = 500)
  ∧ ((∀ r, r ∈ cart_items b →
           row_key r ≠ (user_id, item_product_id item)) →
     http_status 204 (outcome s) = 404).
Proof.
  intros Hauth Hnd Hq s. subst s. rewrite update_cart_run by done.
  destruct (select_from_at_most_one user_id (item_product_id item) _ Hnd)
    as [[Hsel Hno]|(i & r & Hi & Hk & Hsel)]; rewrite Hsel; simpl.
  - split_and!; [done..| |done].
    intros i r Hi Hk. exfalso. apply (Hno r); [|done].
    by eapply list_elem_of_lookup_2.
  - rewrite Hq. split_and!; [done..|].
    intros Hno. exfalso. apply (Hno r); [|done].
    by eapply list_elem_of_lookup_2.
Qed.

Lemma update_cart_without_quantity_witness :
  let b := mkBackend [mkCartItemDB "alice" "sku1" 4] [] in
  let item := mkCartItem "alice" "sku1" None in
  let s := serve (update_cart "alice" item (mkUser "alice")) b in
  (User_user_id (mkUser "alice") = "alice" ∧ keys_unique (cart_items b)
   ∧ item_quantity item = None)
  ∧ outcome s = Raised TypeError ∧ after s = b.
Proof.
  intros b item s.
  assert (keys_unique (cart_items b)) as Hnd by apply NoDup_singleton.
  split; [by split_and!|].
  destruct (update_cart_without_quantity
              "alice" item (mkUser "alice") b eq_refl Hnd eq_refl)
    as (Hsame & _ & Hfound & _).
  split; [|exact Hsame].
  exact (proj1 (Hfound 0%nat (mkCartItemDB "alice" "sku1" 4)
                  eq_refl eq_refl)).
Defined.

(** ** Invariants of the table *)

(** X5. A table with one row at most for each (user, product) pair stays
    so under every request: [add_to_cart] appends a row only after its
    lookup found none for the key, and the other paths change quantities
    or delete. *)
Theorem requests_keep_keys_unique user_id item current_user b :
  keys_unique (cart_items b) →
  keys_unique
    (cart_items (after (serve (add_to_cart user_id item current_user) b)))
  ∧ keys_unique
      (cart_items (after (serve (update_cart user_id item current_user) b)))
  ∧ keys_unique
      (cart_items
         (after (serve (remove_from_cart user_id item current_user) b)))
  ∧ keys_unique
      (cart_items (after (serve (get_cart user_id current_user) b))).
Proof.
  intros Hnd. split_and!.
  - by apply add_to_cart_keeps_keys_unique.
  - by apply update_cart_keeps_keys_unique.
  - destruct (decide (User_user_id current_user = user_id));
      [by rewrite remove_from_cart_run|by rewrite remove_from_cart_forbidden].
  - destruct (decide (User_user_id current_user = user_id));
      [by rewrite get_cart_run|by rewrite get_cart_forbidden].
Qed.

Lemma requests_keep_keys_unique_witness :
  let b := mkBackend [mkCartItemDB "alice" "sku1" 4] [] in
  let item := mkCartItem "alice" "sku2" (Some 3) in
  keys_unique (cart_items b)
  ∧ keys_unique
      (cart_items (after (serve (add_to_cart "alice" item (mkUser "alice")) b))).
Proof.
  intros b item.
  assert (keys_unique (cart_items b)) as Hnd by apply NoDup_singleton.
  split; [exact Hnd|].
  exact (proj1 (requests_keep_keys_unique
                  "alice" item (mkUser "alice") b Hnd)).
Defined.

(** X6. Stored quantities of 1 or more stay so under every request whose
    body does not carry a negative quantity for [add_to_cart]:
    [update_cart] keeps the invariant for every body, since it deletes
    where it would store zero or less, and [add_to_cart] keeps it when
    its quantity is missing, zero or positive. *)
Theorem quantities_stay_positive user_id item current_user b :
  quantities_positive (cart_items b) →
  quantities_positive
    (cart_items (after (serve (update_cart user_id item current_user) b)))
  ∧ quantities_positive
      (cart_items
         (after (serve (remove_from_cart user_id item current_user) b)))
  ∧ ((∀ q, item_quantity item = Some q → 0 ≤ q) →
     quantities_positive
       (cart_items (after (serve (add_to_cart user_id item current_user) b)))).
Proof.
  intros Hpos. split_and!.
  - by apply update_cart_keeps_quantities_positive.
  - destruct (decide (User_user_id current_user = user_id));
      [by rewrite remove_from_cart_run|by rewrite remove_from_cart_forbidden].
  - intros Hq. by apply add_to_cart_keeps_quantities_positive.
Qed.

Lemma quantities_stay_positive_witness :
  let b := mkBackend [mkCartItemDB "alice" "sku1" 4] [] in
  let item := mkCartItem "alice" "sku1" (Some (-3)) in
  quantities_positive (cart_items b)
  ∧ quantities_positive
      (cart_items (after (serve (update_cart "alice" item (mkUser "alice")) b))).
Proof.
  intros b item.
  assert (quantities_positive (cart_items b)) as Hpos.
  { repeat constructor. simpl. lia. }
  split; [exact Hpos|].
  exact (proj1 (quantities_stay_positive
                  "alice" item (mkUser "alice") b Hpos)).
Defined.

(** X10. [add_to_cart] never removes a row and adds one at most;
    [update_cart] never adds a row and removes one at most.  This holds
    for every caller, body and table. *)
Theorem table_size_changes_by_one user_id item current_user b :
  let size_after (h : Handler unit) :=
    length (cart_items (after (serve h b))) in
  let size := length (cart_items b) in
  (size ≤ size_after (add_to_cart user_id item current_user) ≤ S size)%nat
  ∧ (size - 1 ≤ size_after (update_cart user_id item current_user) ≤ size)%nat.
Proof.
  intros size_after size. subst size_after size.
  destruct (decide (User_user_id current_user = user_id)) as [Hauth|Hforeign];
    [|rewrite add_to_cart_forbidden, update_cart_forbidden by done;
      simpl; lia].
  rewrite add_to_cart_run, update_cart_run by done.
  destruct (select_from _ 0 (cart_items b)) as [|[i r] [|x l]] eqn:Hsel;
    simpl; rewrite ?length_app, ?length_alter; simpl; try lia.
  apply select_from_single in Hsel as [Hi _].
  destruct (item_quantity item) as [q|]; [|simpl; lia].
  destruct (Z.leb q 0); simpl.
  - rewrite length_delete by done. lia.
  - rewrite length_alter. lia.
Qed.

(** ** Removal *)


(** ** How requests compose *)



(** X8. Repeating an authorized [update_cart] with the same body: when
    the quantity is positive the second request succeeds and leaves the
    table as the first one left it; when it is zero or negative the first
    request deleted the row, so the second is answered with 404 and
    changes nothing. *)
Theorem update_cart_repeated user_id item current_user b i r q :
  User_user_id current_user = user_id →
  keys_unique (cart_items b) →
  cart_items b !! i = Some r →
  row_key r = (user_id, item_product_id item) →
  item_quantity item = Some q →
  let update := serve (update_cart user_id item current_user) in
  let once := after (update b) in
  (0 < q →
   outcome (update once) = Returned tt
   ∧ cart_items (after (update once)) = cart_items once)
  ∧ (q ≤ 0 →
     outcome (update once)
     = Raised (HTTPException HTTP_404_NOT_FOUND "Item not found in cart")
     ∧ after (update once) = once).
Proof.
  intros Hauth Hnd Hi Hk Hq update once. subst once update.
  rewrite (update_cart_run _ _ Hauth item b).
  rewrite (select_from_unique _ _ 0 _ i r) by done. simpl. rewrite Hq.
  destruct (Z.leb_spec q 0) as [Hle|Hgt]; (split; [|]); try lia; intros _.
  - rewrite update_cart_run by done. simpl.
    rewrite select_from_absent; [done|].
    intros r' Hr'. rewrite <- Hk. by apply (delete_removes_key (cart_items b) i r).
  - rewrite (alter_with_quantity _ _ _ r) by done.
    set (r' := with_quantity q r).
    rewrite update_cart_run by done. simpl.
    rewrite (select_from_unique _ _ 0 _ i r').
    + simpl. rewrite Hq, (proj2 (Z.leb_gt q 0) Hgt). simpl.
      split; [done|].
      rewrite (alter_with_quantity _ _ _ r').
      * by rewrite list_insert_insert_eq.
      * apply list_lookup_insert_eq. by eapply lookup_lt_Some.
    + unfold keys_unique, r'. by rewrite (keys_insert_with_quantity _ _ _ r).
    + apply list_lookup_insert_eq. by eapply lookup_lt_Some.
    + done.
Qed.

Lemma update_cart_repeated_witness :
  let b := mkBackend [mkCartItemDB "alice" "sku1" 4] [] in
  let item := mkCartItem "alice" "sku1" (Some 0) in
  let update := serve (update_cart "alice" item (mkUser "alice")) in
  (User_user_id (mkUser "alice") = "alice" ∧ keys_unique (cart_items b)
   ∧ cart_items b !! 0%nat = Some (mkCartItemDB "alice" "sku1" 4)
   ∧ item_quantity item = Some 0)
  ∧ http_status 204 (outcome (update b)) = 204
  ∧ http_status 204 (outcome (update (after (update b)))) = 404.
Proof.
  intros b item update.
  assert (keys_unique (cart_items b)) as Hnd by apply NoDup_singleton.
  split; [by split_and!|]. split; [reflexivity|].
  destruct (update_cart_repeated "alice" item (mkUser "alice") b 0
              (mkCartItemDB "alice" "sku1" 4) 0
              eq_refl Hnd eq_refl eq_refl eq_refl)
    as [_ Hgone].
  destruct Hgone as [Hout _]; [lia|].
  exact (f_equal (http_status 204) Hout).
Defined.

(** X9. Adding a product that the cart does not hold and then updating it
    with a quantity of zero or less gives back the table as it was: the
    row that [add_to_cart] appended is the one [update_cart] deletes. *)
Theorem add_then_update_nonpositive_restores
    user_id item item' current_user b q :
  User_user_id current_user = user_id →
  (∀ r, r ∈ cart_items b → row_key r ≠ (user_id, item_product_id item)) →
  item_product_id item' = item_product_id item →
  item_quantity item' = Some q →
  q ≤ 0 →
  let added := after (serve (add_to_cart user_id item current_user) b) in
  let s := serve (update_cart user_id item' current_user) added in
  outcome s = Returned tt ∧ cart_items (after s) = cart_items b.
Proof.
  intros Hauth Hno Hp Hq Hle added s. subst s added.
  rewrite add_to_cart_absent by done.
  rewrite update_cart_run by done. simpl. rewrite Hp.
  rewrite select_from_app, select_from_absent by done. simpl.
  assert (keyed_by user_id (item_product_id item)
            (mkCartItemDB user_id (item_product_id item)
               (py_or (item_quantity item) 1)) = true) as ->
    by by apply keyed_by_true.
  simpl. rewrite Hq, (proj2 (Z.leb_le q 0) Hle). simpl.
  split; [done|]. by rewrite delete_middle, app_nil_r.
Qed.

Lemma add_then_update_nonpositive_restores_witness :
  let b := mkBackend [mkCartItemDB "bob" "sku1" 7] [] in
  let item := mkCartItem "alice" "sku1" (Some 2) in
  let item' := mkCartItem "alice" "sku1" (Some 0) in
  let added := after (serve (add_to_cart "alice" item (mkUser "alice")) b) in
  (User_user_id (mkUser "alice") = "alice"
   ∧ item_product_id item' = item_product_id item
   ∧ item_quantity item' = Some 0 ∧ 0 ≤ 0)
  ∧ cart_items
      (after (serve (update_cart "alice" item' (mkUser "alice")) added))
    = [mkCartItemDB "bob" "sku1" 7].
Proof.
  intros b item item' added.
  assert (0 ≤ 0) as Hle by lia.
  split; [by split_and!|].
  refine (proj2 (add_then_update_nonpositive_restores
                   "alice" item item' (mkUser "alice") b 0
                   eq_refl _ eq_refl eq_refl Hle)).
  intros r Hr. apply list_elem_of_singleton in Hr as ->.
  unfold row_key. simpl. congruence.
Defined.

(** X12. Additions add up: on a table with unique keys, two authorized
    [add_to_cart] requests for one product leave the same table as a
    single request carrying the sum of their quantities, each quantity
    being read as [item.quantity or 1]. *)
Theorem add_to_cart_twice_adds_up
    user_id item1 item2 item12 current_user b :
  User_user_id current_user = user_id →
  keys_unique (cart_items b) →
  item_product_id item2 = item_product_id item1 →
  item_product_id item12 = item_product_id item1 →
  py_or (item_quantity item12) 1
  = py_or (item_quantity item1) 1 + py_or (item_quantity item2) 1 →
  let add item := serve (add_to_cart user_id item current_user) in
  cart_items (after (add item2 (after (add item1 b))))
  = cart_items (after (add item12 b)).
Proof.
  intros Hauth Hnd Hp2 Hp12 Hsum add. subst add.
  destruct (select_from_at_most_one user_id (item_product_id item1) _ Hnd)
    as [[_ Hno]|(i & r & Hi & Hk & _)].
  - rewrite (add_to_cart_absent _ item1) by done.
    rewrite (add_to_cart_absent _ item12) by (rewrite ?Hp12; done).
    set (new := mkCartItemDB user_id (item_product_id item1)
                  (py_or (item_quantity item1) 1)).
    rewrite (add_to_cart_existing _ item2 _ _ Hauth
               (length (cart_items b)) new); simpl.
    + replace (length (cart_items b))
        with (length (cart_items b) + 0)%nat at 1 by lia.
      rewrite insert_app_r. simpl. unfold with_quantity. simpl.
      by rewrite Hp12, Hsum.
    + by apply keys_unique_snoc.
    + by apply list_lookup_middle.
    + by rewrite Hp2.
  - rewrite (add_to_cart_existing _ item1 _ _ Hauth i r) by done.
    rewrite (add_to_cart_existing _ item12 _ _ Hauth i r)
      by (by rewrite ?Hp12).
    set (r' := with_quantity (row_quantity r + py_or (item_quantity item1) 1)
                 r).
    rewrite (add_to_cart_existing _ item2 _ _ Hauth i r'); simpl.
    + rewrite list_insert_insert_eq. unfold with_quantity. simpl.
      by rewrite Hsum, Z.add_assoc.
    + unfold keys_unique, r'.
      by rewrite (keys_insert_with_quantity _ _ _ r).
    + apply list_lookup_insert_eq. by eapply lookup_lt_Some.
    + by rewrite Hp2.
Qed.

Lemma add_to_cart_twice_adds_up_witness :
  let b := mkBackend [mkCartItemDB "alice" "sku1" 4] [] in
  let item q := mkCartItem "alice" "sku1" q in
  let add q := serve (add_to_cart "alice" (item q) (mkUser "alice")) in
  (User_user_id (mkUser "alice") = "alice" ∧ keys_unique (cart_items b)
   ∧ py_or (Some 4) 1 = py_or None 1 + py_or (Some 3) 1)
  ∧ cart_items (after (add (Some 3) (after (add None b))))
    = cart_items (after (add (Some 4) b)).
Proof.
  intros b item add.
  assert (keys_unique (cart_items b)) as Hnd by apply NoDup_singleton.
  split; [by split_and!|].
  exact (add_to_cart_twice_adds_up
           "alice" (item None) (item (Some 3)) (item (Some 4))
           (mkUser "alice") b eq_refl Hnd eq_refl eq_refl eq_refl).
Defined.

(** ** Isolation between products *)

(** X13. A request touches the row of its own key only: for every caller,
    body and table, the rows stored under any key other than the path's
    user with the item's product are the same, in the same order, after
    [add_to_cart] and after [update_cart]. *)
Theorem other_keys_untouched user_id item current_user b k :
  k ≠ (user_id, item_product_id item) →
  let rows_at (l : list CartItemDB) := filter (λ r, row_key r = k) l in
  rows_at (cart_items (after (serve (add_to_cart user_id item current_user) b)))
  = rows_at (cart_items b)
  ∧ rows_at
      (cart_items (after (serve (update_cart user_id item current_user) b)))
    = rows_at (cart_items b).
Proof.
  intros Hk rows_at. subst rows_at.
  destruct (decide (User_user_id current_user = user_id)) as [Hauth|Hforeign];
    [|by rewrite add_to_cart_forbidden, update_cart_forbidden].
  rewrite add_to_cart_run, update_cart_run by done.
  split.
  - destruct (select_from _ 0 (cart_items b)) as [|[i r] [|x l]] eqn:Hsel;
      try done; simpl.
    + rewrite filter_app, filter_cons_False, filter_nil by (unfold row_key; simpl; congruence).
      by rewrite app_nil_r.
    + apply select_from_single in Hsel as [Hi Hr].
      apply keyed_by_true in Hr.
      rewrite (alter_with_quantity _ _ _ r) by done.
      apply (filter_insert_other _ _ i r); [done|congruence|].
      unfold with_quantity, row_key in *. simpl. congruence.
  - destruct (select_from _ 0 (cart_items b)) as [|[i r] [|x l]] eqn:Hsel;
      try done.
    apply select_from_single in Hsel as [Hi Hr].
    apply keyed_by_true in Hr.
    destruct (item_quantity item) as [q|]; [|done].
    destruct (Z.leb q 0); simpl.
    + apply (filter_delete_other _ _ i r); [done|congruence].
    + rewrite (alter_with_quantity _ _ _ r) by done.
      apply (filter_insert_other _ _ i r); [done|congruence|].
      unfold with_quantity, row_key in *. simpl. congruence.
Qed.

Lemma other_keys_untouched_witness :
  let b := mkBackend [mkCartItemDB "alice" "sku2" 7;
                      mkCartItemDB "alice" "sku1" 2] [] in
  let item := mkCartItem "alice" "sku1" (Some 0) in
  ("alice", "sku2") ≠ ("alice", item_product_id item)
  ∧ filter (λ r, row_key r = ("alice", "sku2"))
      (cart_items (after (serve (update_cart "alice" item (mkUser "alice")) b)))
    = [mkCartItemDB "alice" "sku2" 7].
Proof.
  intros b item.
  assert (("alice", "sku2") ≠ ("alice", item_product_id item)) as Hk
    by (simpl; congruence).
  split; [exact Hk|].
  exact (proj2 (other_keys_untouched
                  "alice" item (mkUser "alice") b ("alice", "sku2") Hk)).
Defined.
